(** * asynctest: the [useapi] relay and the mock item server

    A shallow embedding of [src/asynctest/useapi.py] and of the three
    handlers of [src/asynctest/mock_api_server.py].

    Python values that travel as JSON are values of [JSON]; a coroutine is
    a function in the monad [M], which threads the state of the outside
    world and the log of outbound calls and which can raise a Python
    exception.  The HTTP client (aiohttp) and the upstream it talks to are
    not part of the repository: they are a parameter, the record
    [ClientSession], whose methods answer with a response or raise. *)

From Stdlib Require Import ZArith QArith String Ascii List Bool Lia DecimalString.
From Stdlib Require Import DecimalZ DecimalPos.
Import ListNotations.
Local Open Scope string_scope.
Local Open Scope Z_scope.
Set Warnings "-register-all".

(** ** Python values, exceptions and coroutines *)

Module Py.

(** [Any] as it is received from and sent as JSON: [None], [bool],
    [int], [float], [str], [list] and [dict] (insertion-ordered). *)
Inductive JSON : Type :=
| JNull
| JBool (b : bool)
| JInt (n : Z)
| JFloat (q : Q)
| JStr (s : string)
| JList (l : list JSON)
| JDict (d : list (string * JSON)).

(** [str(n)] for an [int]. *)
Definition str_int (n : Z) : string := NilZero.string_of_int (Z.to_int n).

(** An exception object: the names of the classes of its method
    resolution order and the text [str(exc)]. *)
Record PyExc : Type := mkExc { exc_mro : list string; exc_str : string }.

(** [isinstance(exc, cls)], which is what an [except cls] clause tests. *)
Definition isinstance (e : PyExc) (cls : string) : bool :=
  existsb (String.eqb cls) (exc_mro e).

(** The outcome of a call: it returns or it raises. *)
Inductive result (A : Type) : Type :=
| Return (a : A)
| Raise (e : PyExc).
Arguments Return {A} a.
Arguments Raise {A} e.

(** One outbound HTTP request, as handed to the client session. *)
Inductive Call : Type :=
| CallGet (url : string)
| CallPost (url : string) (json : list (string * JSON)).

Definition call_body (c : Call) : option JSON :=
  match c with
  | CallGet _ => None
  | CallPost _ p => Some (JDict p)
  end.

Section Coroutines.
Context {World : Type}.

(** What a coroutine can touch: the world outside the process and the
    requests handed to the client session so far (oldest first). *)
Record St : Type := mkSt { world : World; trace : list Call }.

Definition M (A : Type) : Type := St -> result A * St.

Definition ret {A} (a : A) : M A := fun s => (Return a, s).

Definition raise {A} (e : PyExc) : M A := fun s => (Raise e, s).

Definition bind {A B} (m : M A) (k : A -> M B) : M B :=
  fun s =>
    match m s with
    | (Return a, s') => k a s'
    | (Raise e, s') => (Raise e, s')
    end.

(** [await] of an operation whose outcome is already fixed. *)
Definition await {A} (r : result A) : M A := fun s => (r, s).

(** The handler of the first [except] clause whose class the
    exception is an instance of. *)
Fixpoint first_handler {A} (hs : list (string * (PyExc -> M A)))
         (e : PyExc) : option (PyExc -> M A) :=
  match hs with
  | [] => None
  | (cls, h) :: hs' => if isinstance e cls then Some h else first_handler hs' e
  end.

(** [try: m  except c1 as exc: h1  except c2 as exc: h2 ...]: the
    clauses are tried in order, and an exception that matches none of
    them goes on to the caller. *)
Definition try_except {A} (m : M A) (hs : list (string * (PyExc -> M A))) : M A :=
  fun s =>
    match m s with
    | (Return a, s') => (Return a, s')
    | (Raise e, s') =>
        match first_handler hs e with
        | Some h => h e s'
        | None => (Raise e, s')
        end
    end.
End Coroutines.

Arguments St : clear implicits.
Arguments M : clear implicits.

Declare Scope py_scope.
Delimit Scope py_scope with py.
Notation "x <- m ;; k" := (bind m (fun x => k))
  (at level 61, m at next level, right associativity) : py_scope.

(** [d[key] = v]: a key the dict has keeps its place and takes the new
    value, a new key goes to the end. *)
Fixpoint dict_set (key : string) (v : JSON) (d : list (string * JSON))
  : list (string * JSON) :=
  match d with
  | [] => [(key, v)]
  | (k, v') :: d' =>
      if (k =? key)%string then (k, v) :: d' else (k, v') :: dict_set key v d'
  end.

(** The dict display [{**d1, **d2}]: the items of [d2] are set, in
    order, into a copy of [d1]. *)
Definition dict_merge (d1 d2 : list (string * JSON)) : list (string * JSON) :=
  fold_left (fun d kv => dict_set (fst kv) (snd kv) d) d2 d1.

End Py.

Import Py.
Local Open Scope py_scope.

(** ** [useapi.py]: the relay *)

Module useapi.

(** What the relay reads of an aiohttp [ClientResponse]: the status
    line and the outcomes of awaiting [response.json()] and
    [response.text()].  The outcomes belong to the client library and
    the upstream, so the relay's model fixes neither. *)
Record ClientResponse : Type := mkResponse {
  status : Z;
  json : result JSON;
  text : result string
}.

(** The [ClientSession] the relay opens for one call: [session.get(url)]
    and [session.post(url, json=payload)], each of which answers with a
    response or raises, and may change the world. *)
Record ClientSession (World : Type) : Type := mkSession {
  get : string -> World -> result ClientResponse * World;
  post : string -> list (string * JSON) -> World -> result ClientResponse * World
}.
Arguments get {World} _ _ _.
Arguments post {World} _ _ _ _.

(** The pydantic model [APIRequest]; [payload] defaults to [None]. *)
Record APIRequest : Type := mkRequest {
  host : string;
  port : Z;
  route : string;
  method : string;
  payload : option (list (string * JSON))
}.

(** [Field(..., pattern="^(GET|POST)$")]: the whole string is one of the
    two alternatives. *)
Definition method_pattern (m : string) : bool :=
  existsb (String.eqb m) ["GET"; "POST"].

Inductive ValidationError : Type :=
| string_pattern_mismatch (field : string) (value : string).

(** Construction of an [APIRequest] from fields of the declared types:
    the only rule the model adds to the types is the pattern of
    [method]. *)
Definition model_validate (r : APIRequest) : ValidationError + APIRequest :=
  if method_pattern (method r) then inr r
  else inl (string_pattern_mismatch "method" (method r)).

(** The names the [except] clauses of [use_api] test ([IOError] is
    [OSError]). *)
Definition asyncio_TimeoutError : string := "asyncio.TimeoutError".
Definition ClientConnectorError : string := "ClientConnectorError".
Definition ClientError : string := "ClientError".
Definition ValueError : string := "ValueError".
Definition IOError : string := "OSError".

(** The dict literal [{"status": ..., "content": ...}]. *)
Definition envelope (st : Z) (content : JSON) : JSON :=
  JDict [("status", JInt st); ("content", content)].

Section Relay.
Context {World : Type}.
Variable session : ClientSession World.

(** Awaiting [session.get(url)]: the call is logged and the world
    moves on. *)
Definition session_get (url : string) : M World ClientResponse :=
  fun s =>
    let (r, w) := get session url (world s) in
    (r, mkSt w (trace s ++ [CallGet url])).

Definition session_post (url : string) (p : list (string * JSON))
  : M World ClientResponse :=
  fun s =>
    let (r, w) := post session url p (world s) in
    (r, mkSt w (trace s ++ [CallPost url p])).

(** [handle_response] (lines 107-135). *)
Definition handle_response (response : ClientResponse) : M World JSON :=
  let status := status response in
  content <- try_except (await (json response))
               [(ValueError,
                 fun _ => t <- await (text response) ;; ret (JStr t))] ;;
  ret (envelope status content).

(** [use_api] (lines 51-104).  The log records are left out; a
    [method] that is neither ["GET"] nor ["POST"] leaves the [try]
    block without a [return], so the function returns [None]. *)
Definition use_api (request : APIRequest) : M World JSON :=
  let url := "http://" ++ host request ++ ":" ++ str_int (port request)
             ++ route request in
  try_except
    (if (method request =? "GET")%string then
       response <- session_get url ;;
       handle_response response
     else if (method request =? "POST")%string then
       match payload request with
       | None => ret (envelope 400 (JStr "Payload is required for POST requests"))
       | Some p =>
           response <- session_post url p ;;
           handle_response response
       end
     else ret JNull)
    [(asyncio_TimeoutError,
      fun _ => ret (envelope 504 (JStr "Request timed out")));
     (ClientConnectorError,
      fun exc => ret (envelope 503 (JStr ("Service unavailable: " ++ exc_str exc))));
     (ClientError,
      fun exc => ret (envelope 500 (JStr ("Client error: " ++ exc_str exc))));
     (ValueError,
      fun exc => ret (envelope 400 (JStr ("Invalid input: " ++ exc_str exc))));
     (IOError,
      fun exc => ret (envelope 500 (JStr ("I/O error: " ++ exc_str exc))))].

(** Which answer the inbound layer gives to [POST /useapi]: the
    handler's return value, or the refusal of a descriptor that does not
    validate.  The refusal is kept as the validation error; the body
    FastAPI writes from it is not modelled, and neither is the answer
    the server gives when the handler raises, which stays a [Raise]. *)
Inductive Inbound : Type :=
| Responded (body : JSON)
| Unprocessable (err : ValidationError).

(** The status line of the inbound answer: 200 around the handler's
    return value, and FastAPI's 422 for a descriptor that does not
    validate. *)
Definition inbound_status (r : Inbound) : Z :=
  match r with
  | Responded _ => 200
  | Unprocessable _ => 422
  end.

(** [@app.post("/useapi")]: the body is validated into an
    [APIRequest] before the handler runs. *)
Definition post_useapi (raw : APIRequest) : M World Inbound :=
  match model_validate raw with
  | inl err => ret (Unprocessable err)
  | inr request => body <- use_api request ;; ret (Responded body)
  end.
End Relay.

End useapi.

(** ** [mock_api_server.py]: the item endpoint *)

Module mock_api_server.

Record HTTPException : Type := mkHTTPException {
  status_code : Z;
  detail : string
}.

(** [read_item] (lines 47-64); [value] is the draw of
    [random.uniform(1, 100)]. *)
Definition read_item (item_id : Z) (value : Q) : HTTPException + JSON :=
  if (item_id <? 0) || (item_id >? 100) then
    inl (mkHTTPException 404 "Item not found")
  else
    inr (JDict [("item_id", JInt item_id);
                ("name", JStr ("Item " ++ str_int item_id));
                ("value", JFloat value)]).

(** The pydantic model [Item]. *)
Record Item : Type := mkItem {
  name : string;
  value : Q
}.

(** [item.model_dump()]: the fields in declaration order. *)
Definition model_dump (item : Item) : list (string * JSON) :=
  [("name", JStr (name item)); ("value", JFloat (value item))].

(** [create_item] (lines 67-78); [randint] is the draw of
    [random.randint(1, 1000)]. *)
Definition create_item (item : Item) (randint : Z) : JSON :=
  JDict (dict_merge [("item_id", JInt randint)] (model_dump item)).

(** [simulate_error] (lines 81-94); [choice] is the draw of
    [random.choice([True, False])]. *)
Definition simulate_error (choice : bool) : HTTPException + JSON :=
  if choice then
    inl (mkHTTPException 500
           "Code triggered 'Internal Server Error' in the mock server. NOT a real error")
  else inr (JDict [("message", JStr "No error occurred")]).

End mock_api_server.

(** ** Vocabulary of the statements *)

Module Spec.
Import useapi.

(** The URL [use_api] builds for a descriptor. *)
Definition target_url (request : APIRequest) : string :=
  "http://" ++ host request ++ ":" ++ str_int (port request) ++ route request.

(** The exception is an instance of one of the five classes [use_api]
    has an [except] clause for. *)
Definition handled (e : PyExc) : bool :=
  isinstance e asyncio_TimeoutError || isinstance e ClientConnectorError
  || isinstance e ClientError || isinstance e ValueError || isinstance e IOError.

(** The table of synthetic envelopes, read top to bottom: what becomes
    of a fault that reaches the [except] clauses of [use_api]. *)
Definition taxonomy (e : PyExc) : result JSON :=
  if isinstance e asyncio_TimeoutError then
    Return (envelope 504 (JStr "Request timed out"))
  else if isinstance e ClientConnectorError then
    Return (envelope 503 (JStr ("Service unavailable: " ++ exc_str e)))
  else if isinstance e ClientError then
    Return (envelope 500 (JStr ("Client error: " ++ exc_str e)))
  else if isinstance e ValueError then
    Return (envelope 400 (JStr ("Invalid input: " ++ exc_str e)))
  else if isinstance e IOError then
    Return (envelope 500 (JStr ("I/O error: " ++ exc_str e)))
  else Raise e.

(** The statuses of the envelopes [use_api] writes itself. *)
Definition synthetic_status (st : Z) : bool :=
  existsb (Z.eqb st) [400; 500; 503; 504].

(** [v] is what [handle_response] makes of the upstream response
    [resp]: its status, with the decoded JSON or else the text. *)
Definition relays (resp : ClientResponse) (v : JSON) : Prop :=
  (exists c, json resp = Return c /\ v = envelope (status resp) c)
  \/ (exists e t, json resp = Raise e /\ isinstance e ValueError = true
                  /\ text resp = Return t /\ v = envelope (status resp) (JStr t)).

(** The outcome of the one outbound call the descriptor asks for, in
    the world [w]; [None] when the descriptor asks for no call. *)
Definition outbound {World} (session : ClientSession World)
           (request : APIRequest) (w : World) : option (result ClientResponse) :=
  if (method request =? "GET")%string then
    Some (fst (get session (target_url request) w))
  else if (method request =? "POST")%string then
    match payload request with
    | None => None
    | Some p => Some (fst (post session (target_url request) p w))
    end
  else None.

(** The response the relay's client sees when a handler of the mock
    server ends with [o]: FastAPI answers a returned value with 200 and
    the value as JSON body, and a raised [HTTPException] with its
    [status_code] and the body [{"detail": detail}]. *)
Definition rendered (o : mock_api_server.HTTPException + JSON)
           (resp : ClientResponse) : Prop :=
  match o with
  | inl exc =>
      status resp = mock_api_server.status_code exc
      /\ json resp = Return (JDict [("detail", JStr (mock_api_server.detail exc))])
  | inr v => status resp = 200 /\ json resp = Return v
  end.

(** No character of the string is [c]. *)
Fixpoint lacks (c : ascii) (s : string) : bool :=
  match s with
  | EmptyString => true
  | String a s' => negb (Ascii.eqb a c) && lacks c s'
  end.
End Spec.

(** ** Concrete upstreams and faults *)

Module Scenarios.
Import useapi.

Definition object_mro : list string := ["Exception"; "BaseException"; "object"].

Definition TimeoutError_exc : PyExc :=
  mkExc ("asyncio.TimeoutError" :: object_mro) EmptyString.

Definition ClientConnectorError_exc : PyExc :=
  mkExc (["ClientConnectorError"; "ClientOSError"; "ClientConnectionError";
          "ClientError"; "OSError"] ++ object_mro)
        "Cannot connect to host localhost:9 ssl:default [Connect call failed]".

Definition ServerDisconnectedError_exc : PyExc :=
  mkExc (["ServerDisconnectedError"; "ServerConnectionError";
          "ClientConnectionError"; "ClientError"] ++ object_mro)
        "Server disconnected".

Definition ValueError_exc : PyExc :=
  mkExc ("ValueError" :: object_mro) "unknown url type".

Definition JSONDecodeError_exc : PyExc :=
  mkExc (["JSONDecodeError"; "ValueError"] ++ object_mro)
        "Expecting value: line 1 column 1 (char 0)".

Definition OSError_exc : PyExc :=
  mkExc ("OSError" :: object_mro) "[Errno 24] Too many open files".

(** aiohttp's answer to [response.json()] on a body whose Content-Type
    is not a JSON one: a [ClientResponseError], not a [ValueError]. *)
Definition ContentTypeError_exc : PyExc :=
  mkExc (["ContentTypeError"; "ClientResponseError"; "ClientError"] ++ object_mro)
        "Attempt to decode JSON with unexpected mimetype: text/plain".

(** aiohttp's fault for a URL it cannot build, here a port above 65535:
    both a [ClientError] and a [ValueError]. *)
Definition InvalidURL_exc : PyExc :=
  mkExc (["InvalidUrlClientError"; "InvalidURL"; "ClientError"; "ValueError"]
           ++ object_mro)
        "http://localhost:70000/".

(** [json.loads] on a body nested deeper than the recursion limit. *)
Definition RecursionError_exc : PyExc :=
  mkExc (["RecursionError"; "RuntimeError"] ++ object_mro)
        "maximum recursion depth exceeded while decoding a JSON array".

(** An upstream that answers every request alike and counts them. *)
Definition constant_session (r : result ClientResponse) : ClientSession nat :=
  mkSession nat (fun _ w => (r, S w)) (fun _ _ w => (r, S w)).

Definition s0 : St nat := mkSt 0%nat [].

Definition item5 : JSON :=
  JDict [("item_id", JInt 5); ("name", JStr "Item 5"); ("value", JFloat (7 # 2))].

(** 200, [application/json], a JSON body. *)
Definition json_response : ClientResponse :=
  mkResponse 200 (Return item5) (Return "the body as text").

(** 404, [application/json], a JSON body. *)
Definition not_found_response : ClientResponse :=
  mkResponse 404 (Return (JDict [("detail", JStr "Item not found")]))
             (Return "the body as text").

(** 200, [application/json], a body that is not JSON. *)
Definition undecodable_response : ClientResponse :=
  mkResponse 200 (Raise JSONDecodeError_exc) (Return "hello").

(** 200, [text/plain], body [hello]. *)
Definition plain_text_response : ClientResponse :=
  mkResponse 200 (Raise ContentTypeError_exc) (Return "hello").

(** 200, [application/json], a body nested too deep to decode. *)
Definition deep_json_response : ClientResponse :=
  mkResponse 200 (Raise RecursionError_exc) (Return "[[[[...]]]]").

Definition get_item5 : APIRequest :=
  mkRequest "localhost" 8001 "/api/item/5" "GET" None.

Definition post_without_payload : APIRequest :=
  mkRequest "localhost" 8001 "/api/item" "POST" None.

Definition post_item : APIRequest :=
  mkRequest "localhost" 8001 "/api/item" "POST"
            (Some [("name", JStr "a"); ("value", JInt 1)]).

Definition get_port_70000 : APIRequest :=
  mkRequest "localhost" 70000 "/" "GET" None.

Definition lowercase_get : APIRequest :=
  mkRequest "localhost" 8001 "/" "get" None.

Definition post_empty_payload : APIRequest :=
  mkRequest "localhost" 8001 "/api/item" "POST" (Some []).

Definition UnicodeDecodeError_exc : PyExc :=
  mkExc (["UnicodeDecodeError"; "UnicodeError"; "ValueError"] ++ object_mro)
        "'utf-8' codec can't decode byte 0xff in position 0: invalid start byte".

(** 200, [application/json], a body that is not valid UTF-8: neither
    [json()] nor [text()] can decode it. *)
Definition binary_response : ClientResponse :=
  mkResponse 200 (Raise UnicodeDecodeError_exc) (Raise UnicodeDecodeError_exc).

(** 500 from the upstream itself, with a JSON body. *)
Definition upstream_500_response : ClientResponse :=
  mkResponse 500 (Return (JDict [("detail", JStr "boom")])) (Return "the body as text").

Definition widget : mock_api_server.Item :=
  mock_api_server.mkItem "widget" (5 # 2).

(** aiohttp's fault for a connection that breaks after it was
    made: a [ClientError] and an [OSError], but no connector error. *)
Definition ClientOSError_exc : PyExc :=
  mkExc (["ClientOSError"; "ClientConnectionError"; "ClientError"; "OSError"]
           ++ object_mro)
        "[Errno 104] Connection reset by peer".

Definition get_item500 : APIRequest :=
  mkRequest "localhost" 8001 "/api/item/500" "GET" None.

Definition get_error : APIRequest :=
  mkRequest "localhost" 8001 "/api/error" "GET" None.

(** The mock server's answer when [simulate_error] raises. *)
Definition mock_error_response : ClientResponse :=
  mkResponse 500
    (Return (JDict [("detail", JStr "Code triggered 'Internal Server Error' in the mock server. NOT a real error")]))
    (Return "the body as text").
End Scenarios.

(** ** Properties of the relay *)

Import useapi Spec.

Ltac run_relay :=
  unfold use_api, handle_response, session_get, session_post,
    try_except, bind, ret, await; cbn [first_handler fst snd world trace].

Section RelayProperties.
Context {World : Type}.
Variable session : ClientSession World.

(** [handle_response] touches neither the world nor the call log. *)
Lemma handle_response_state (resp : ClientResponse) (s : St World) :
  snd (handle_response resp s) = s.
Proof.
  run_relay. destruct (json resp) as [c | e]; cbn; [reflexivity |].
  destruct (isinstance e ValueError); [| reflexivity].
  destruct (text resp); reflexivity.
Qed.

(** A body that decodes is relayed decoded. *)
Lemma handle_response_json (resp : ClientResponse) (s : St World) (c : JSON) :
  json resp = Return c ->
  handle_response resp s = (Return (envelope (status resp) c), s).
Proof. intros H. run_relay. rewrite H. reflexivity. Qed.

(** A body whose decoding raises a [ValueError] is relayed as text. *)
Lemma handle_response_text (resp : ClientResponse) (s : St World) e t :
  json resp = Raise e -> isinstance e ValueError = true ->
  text resp = Return t ->
  handle_response resp s = (Return (envelope (status resp) (JStr t)), s).
Proof. intros Hj Hv Ht. run_relay. rewrite Hj, Hv, Ht. reflexivity. Qed.

(** Any other fault of [response.json()] leaves [handle_response]. *)
Lemma handle_response_raises (resp : ClientResponse) (s : St World) e :
  json resp = Raise e -> isinstance e ValueError = false ->
  handle_response resp s = (Raise e, s).
Proof. intros Hj Hv. run_relay. rewrite Hj, Hv. reflexivity. Qed.

(** Every outcome of [handle_response] is one of: the response relayed,
    or a fault of [json()] or [text()] passed on. *)
Lemma handle_response_cases (resp : ClientResponse) (s : St World) :
  (exists v, handle_response resp s = (Return v, s) /\ relays resp v)
  \/ (exists e, handle_response resp s = (Raise e, s)
                /\ (json resp = Raise e \/ text resp = Raise e)).
Proof.
  destruct (json resp) as [c | e] eqn:Hj.
  - left. exists (envelope (status resp) c). split.
    + now apply handle_response_json.
    + left. now exists c.
  - destruct (isinstance e ValueError) eqn:Hv.
    + destruct (text resp) as [t | e'] eqn:Ht.
      * left. exists (envelope (status resp) (JStr t)). split.
        -- now apply handle_response_text with e.
        -- right. now exists e, t.
      * right. exists e'. split; [| now right].
        run_relay. now rewrite Hj, Hv, Ht.
    + right. exists e. split; [| now left].
      now apply handle_response_raises.
Qed.

Lemma handle_response_world (resp : ClientResponse) (s s' : St World) :
  fst (handle_response resp s) = fst (handle_response resp s').
Proof.
  run_relay. destruct (json resp) as [c | e]; cbn; [reflexivity |].
  destruct (isinstance e ValueError); [| reflexivity].
  destruct (text resp); reflexivity.
Qed.

(** A fault of the outbound call goes through the [except] chain. *)
Lemma use_api_call_fault (request : APIRequest) (s : St World) (e : PyExc) :
  outbound session request (world s) = Some (Raise e) ->
  fst (use_api session request s) = taxonomy e.
Proof.
  unfold outbound, use_api, taxonomy. fold (target_url request).
  destruct (method request =? "GET")%string.
  - intros [= H]. run_relay.
    destruct (get session (target_url request) (world s)) as [r w].
    cbn in H. subst r. cbn.
    repeat (destruct (isinstance e _); [reflexivity |]). reflexivity.
  - destruct (method request =? "POST")%string; [| discriminate].
    destruct (payload request) as [p |]; [| discriminate].
    intros [= H]. run_relay.
    destruct (post session (target_url request) p (world s)) as [r w].
    cbn in H. subst r. cbn.
    repeat (destruct (isinstance e _); [reflexivity |]). reflexivity.
Qed.

(** An upstream response goes through [handle_response], and a fault
    of [handle_response] through the [except] chain. *)
Lemma use_api_call_response (request : APIRequest) (s : St World) resp :
  outbound session request (world s) = Some (Return resp) ->
  fst (use_api session request s) =
  match fst (handle_response resp s) with
  | Return v => Return v
  | Raise e => taxonomy e
  end.
Proof.
  unfold outbound, use_api, taxonomy. fold (target_url request).
  destruct (method request =? "GET")%string.
  - intros [= H]. unfold session_get, try_except, bind at 1.
    destruct (get session (target_url request) (world s)) as [r w].
    cbn in H. subst r.
    rewrite (handle_response_world resp s
               (mkSt w (trace s ++ [CallGet (target_url request)]))).
    destruct (handle_response resp _) as [[v | e] s']; cbn; [reflexivity |].
    repeat (destruct (isinstance e _); [reflexivity |]). reflexivity.
  - destruct (method request =? "POST")%string; [| discriminate].
    destruct (payload request) as [p |]; [| discriminate].
    intros [= H]. unfold session_post, try_except, bind at 1.
    destruct (post session (target_url request) p (world s)) as [r w].
    cbn in H. subst r.
    rewrite (handle_response_world resp s
               (mkSt w (trace s ++ [CallPost (target_url request) p]))).
    destruct (handle_response resp _) as [[v | e] s']; cbn; [reflexivity |].
    repeat (destruct (isinstance e _); [reflexivity |]). reflexivity.
Qed.

(** A descriptor that asks for no call: [POST] without payload, or a
    method outside the pattern. *)
Lemma use_api_no_call (request : APIRequest) (s : St World) :
  outbound session request (world s) = None ->
  use_api session request s =
  (Return (if (method request =? "POST")%string
           then envelope 400 (JStr "Payload is required for POST requests")
           else JNull), s).
Proof.
  unfold outbound, use_api.
  destruct (method request =? "GET")%string; [discriminate |].
  destruct (method request =? "POST")%string; [| reflexivity].
  destruct (payload request); [discriminate | reflexivity].
Qed.

(** What the [except] chain returns is a synthetic envelope. *)
Lemma taxonomy_synthetic (e : PyExc) (v : JSON) :
  taxonomy e = Return v ->
  exists st c, v = envelope st c /\ synthetic_status st = true.
Proof.
  unfold taxonomy.
  repeat (destruct (isinstance e _);
          [intros [= <-]; eexists; eexists; split; reflexivity |]).
  discriminate.
Qed.

(** The [except] chain passes on exactly the faults no clause names. *)
Lemma taxonomy_raises (e e' : PyExc) :
  taxonomy e = Raise e' <-> e' = e /\ handled e = false.
Proof.
  unfold taxonomy, handled.
  destruct (isinstance e asyncio_TimeoutError),
    (isinstance e ClientConnectorError), (isinstance e ClientError),
    (isinstance e ValueError), (isinstance e IOError); cbn;
    split; try discriminate; try (intros [_ ?]; discriminate).
  - intros [= ->]. now split.
  - intros [-> _]. reflexivity.
Qed.

(** A [GET] descriptor adds one call to the log: the [GET] of its URL. *)
Lemma use_api_GET_trace (request : APIRequest) (s : St World) :
  method request = "GET" ->
  trace (snd (use_api session request s)) =
  (trace s ++ [CallGet (target_url request)])%list.
Proof.
  intros Hm. unfold use_api. fold (target_url request).
  rewrite Hm, String.eqb_refl.
  unfold try_except, bind, session_get.
  destruct (get session (target_url request) (world s)) as [[resp | e] w].
  - pose proof (handle_response_state resp
                  (mkSt w (trace s ++ [CallGet (target_url request)]))) as Hs.
    destruct (handle_response resp _) as [[v | e] s']; cbn in Hs; subst s'.
    + reflexivity.
    + cbn. repeat (destruct (isinstance e _); [reflexivity |]). reflexivity.
  - cbn. repeat (destruct (isinstance e _); [reflexivity |]). reflexivity.
Qed.

(** A descriptor whose method fits the pattern gets an envelope, or
    else a fault that no [except] clause of [use_api] names. *)
Lemma use_api_envelope_or_unhandled (request : APIRequest) (s : St World) :
  method_pattern (method request) = true ->
  (exists st c, fst (use_api session request s) = Return (envelope st c))
  \/ (exists e, fst (use_api session request s) = Raise e /\ handled e = false).
Proof.
  intros Hm.
  assert (T : forall e,
             (exists st c, taxonomy e = Return (envelope st c))
             \/ (exists e', taxonomy e = Raise e' /\ handled e' = false)).
  { intros e. destruct (taxonomy e) as [v | e'] eqn:E.
    - left. destruct (taxonomy_synthetic _ _ E) as [st [c [-> _]]]. now exists st, c.
    - right. exists e'. split; [reflexivity |].
      apply taxonomy_raises in E. destruct E as [-> E]. exact E. }
  destruct (outbound session request (world s)) as [[resp | e] |] eqn:Ho.
  - rewrite (use_api_call_response _ _ _ Ho).
    destruct (handle_response_cases resp s) as [[v [Hv Hr]] | [e [He _]]].
    + rewrite Hv. cbn. left.
      destruct Hr as [[c [_ ->]] | [e [t [_ [_ [_ ->]]]]]];
        eexists; eexists; reflexivity.
    + rewrite He. cbn. apply T.
  - rewrite (use_api_call_fault _ _ _ Ho). apply T.
  - rewrite (use_api_no_call _ _ Ho). cbn. left.
    unfold outbound, method_pattern in *. cbn in Hm.
    destruct (method request =? "GET")%string; [discriminate |].
    destruct (method request =? "POST")%string; [| discriminate].
    eexists; eexists; reflexivity.
Qed.

(** C2. A [POST] descriptor whose payload is [None] gets the envelope
    [{status: 400, content: "Payload is required for POST requests"}],
    and nothing is sent: the log of outbound calls and the world are
    as they were. *)
Theorem post_without_payload_short_circuits (request : APIRequest) (s : St World) :
  method request = "POST" ->
  payload request = None ->
  use_api session request s =
  (Return (envelope 400 (JStr "Payload is required for POST requests")), s).
Proof.
  intros Hm Hp. unfold use_api. rewrite Hm, Hp. reflexivity.
Qed.

(** C4, as the code has it. When the outbound call raises, the
    envelope is the one of the
    first [except] clause the fault is an instance of: a timeout gives
    504 "Request timed out"; otherwise a connection failure gives 503
    "Service unavailable: {detail}"; otherwise any other client fault
    gives 500 "Client error: {detail}"; otherwise a [ValueError] gives
    400 "Invalid input: {detail}"; otherwise an I/O fault gives 500
    "I/O error: {detail}". *)
Theorem use_api_error_taxonomy (request : APIRequest) (s : St World) (e : PyExc) :
  outbound session request (world s) = Some (Raise e) ->
  (isinstance e asyncio_TimeoutError = true ->
   fst (use_api session request s) =
   Return (envelope 504 (JStr "Request timed out")))
  /\ (isinstance e asyncio_TimeoutError = false ->
      isinstance e ClientConnectorError = true ->
      fst (use_api session request s) =
      Return (envelope 503 (JStr ("Service unavailable: " ++ exc_str e))))
  /\ (isinstance e asyncio_TimeoutError = false ->
      isinstance e ClientConnectorError = false ->
      isinstance e ClientError = true ->
      fst (use_api session request s) =
      Return (envelope 500 (JStr ("Client error: " ++ exc_str e))))
  /\ (isinstance e asyncio_TimeoutError = false ->
      isinstance e ClientConnectorError = false ->
      isinstance e ClientError = false ->
      isinstance e ValueError = true ->
      fst (use_api session request s) =
      Return (envelope 400 (JStr ("Invalid input: " ++ exc_str e))))
  /\ (isinstance e asyncio_TimeoutError = false ->
      isinstance e ClientConnectorError = false ->
      isinstance e ClientError = false ->
      isinstance e ValueError = false ->
      isinstance e IOError = true ->
      fst (use_api session request s) =
      Return (envelope 500 (JStr ("I/O error: " ++ exc_str e)))).
Proof.
  intros H. rewrite (use_api_call_fault _ _ _ H). unfold taxonomy.
  repeat split; intros; repeat match goal with
                               | E : isinstance _ _ = _ |- _ => rewrite E; clear E
                               end; reflexivity.
Qed.

(** C6. For [GET] the payload plays no part: two descriptors that
    agree on host, port and route give the same result, the same log
    and the same world, and the one call they add to the log carries
    no body. *)
Theorem get_ignores_payload (r1 r2 : APIRequest) (s : St World) :
  method r1 = "GET" -> method r2 = "GET" ->
  host r1 = host r2 -> port r1 = port r2 -> route r1 = route r2 ->
  use_api session r1 s = use_api session r2 s
  /\ exists c, trace (snd (use_api session r1 s)) = (trace s ++ [c])%list
               /\ call_body c = None.
Proof.
  intros H1 H2 Hh Hp Hr. split.
  - unfold use_api. rewrite H1, H2, Hh, Hp, Hr. reflexivity.
  - exists (CallGet (target_url r1)). split; [| reflexivity].
    now apply use_api_GET_trace.
Qed.

(** C8. Two [GET] relays of one descriptor, in whatever two states of
    the world, give the same result as soon as the upstream gives the
    same answer to the call in both. *)
Theorem get_relay_deterministic (request : APIRequest) (s1 s2 : St World) :
  method request = "GET" ->
  fst (get session (target_url request) (world s1)) =
  fst (get session (target_url request) (world s2)) ->
  fst (use_api session request s1) = fst (use_api session request s2).
Proof.
  intros Hm Hup.
  assert (Ho : forall s, outbound session request (world s) =
                         Some (fst (get session (target_url request) (world s)))).
  { intros s. unfold outbound. rewrite Hm. reflexivity. }
  pose proof (Ho s1) as H1. pose proof (Ho s2) as H2. rewrite <- Hup in H2.
  destruct (fst (get session (target_url request) (world s1))) as [resp | e].
  - rewrite (use_api_call_response _ _ _ H1), (use_api_call_response _ _ _ H2).
    rewrite (handle_response_world resp s1 s2). reflexivity.
  - rewrite (use_api_call_fault _ _ _ H1), (use_api_call_fault _ _ _ H2).
    reflexivity.
Qed.

(** C9. An envelope [use_api] returns either relays an upstream
    response or has a status in {400, 500, 503, 504}; so an envelope
    whose status is outside that set carries the status of a response
    the upstream gave, with its decoded body or its text. *)
Theorem non_synthetic_status_is_upstream
        (request : APIRequest) (s : St World) (st : Z) (c : JSON) :
  fst (use_api session request s) = Return (envelope st c) ->
  ((exists resp, outbound session request (world s) = Some (Return resp)
                 /\ relays resp (envelope st c))
   \/ synthetic_status st = true)
  /\ (synthetic_status st = false ->
      exists resp, outbound session request (world s) = Some (Return resp)
                   /\ status resp = st
                   /\ relays resp (envelope st c)).
Proof.
  intros H.
  assert (D : (exists resp, outbound session request (world s) = Some (Return resp)
                            /\ status resp = st /\ relays resp (envelope st c))
              \/ synthetic_status st = true).
  { destruct (outbound session request (world s)) as [[resp | e] |] eqn:Ho.
    - rewrite (use_api_call_response _ _ _ Ho) in H.
      destruct (handle_response_cases resp s) as [[v [Hv Hr]] | [e [He _]]].
      + rewrite Hv in H. cbn in H. injection H as ->.
        left. exists resp. split; [reflexivity |]. split; [| exact Hr].
        destruct Hr as [[c' [_ E]] | [e' [t [_ [_ [_ E]]]]]];
          now injection E as ->.
      + rewrite He in H. cbn in H.
        destruct (taxonomy_synthetic _ _ H) as [st' [c' [E Hs]]].
        injection E as -> _. now right.
    - rewrite (use_api_call_fault _ _ _ Ho) in H.
      destruct (taxonomy_synthetic _ _ H) as [st' [c' [E Hs]]].
      injection E as -> _. now right.
    - rewrite (use_api_no_call _ _ Ho) in H. cbn in H.
      destruct (method request =? "POST")%string; [| discriminate].
      injection H as <- _. now right. }
  split.
  - destruct D as [[resp [Ho [_ Hr]]] | Hs]; [left; now exists resp | now right].
  - intros Hn. destruct D as [D | Hs]; [exact D | congruence].
Qed.

(** C7. The method is matched exactly: a descriptor validates if and
    only if its method is the string "GET" or the string "POST"; with
    any other method the inbound layer answers 422, a client-error
    status, and [use_api] does not run. *)
Theorem method_match_is_exact (raw : APIRequest) (s : St World) :
  (model_validate raw = inr raw <-> method raw = "GET" \/ method raw = "POST")
  /\ (~ (method raw = "GET" \/ method raw = "POST") ->
      exists err,
        model_validate raw = inl err
        /\ post_useapi session raw s = (Return (Unprocessable err), s)
        /\ inbound_status (Unprocessable err) = 422
        /\ 400 <= inbound_status (Unprocessable err) < 500).
Proof.
  assert (P : method_pattern (method raw) = true
              <-> method raw = "GET" \/ method raw = "POST").
  { unfold method_pattern. cbn. rewrite !orb_true_iff, !String.eqb_eq.
    intuition discriminate. }
  split.
  - unfold model_validate.
    destruct (method_pattern (method raw)); split; intros H.
    + now apply P.
    + reflexivity.
    + discriminate.
    + apply P in H. discriminate.
  - intros Hn. unfold post_useapi, model_validate.
    destruct (method_pattern (method raw)).
    + exfalso. apply Hn, P. reflexivity.
    + eexists. repeat split; cbn; lia.
Qed.

(** C5, as the code has it. A descriptor validates whatever integer
    its port is: only the method pattern is checked.  The port is
    written as given into the URL, and the call of a [GET] descriptor
    is issued to that URL. *)
Theorem port_is_not_range_checked
        (h : string) (p : Z) (rt m : string) (pl : option (list (string * JSON)))
        (s : St World) :
  m = "GET" \/ m = "POST" ->
  model_validate (mkRequest h p rt m pl) = inr (mkRequest h p rt m pl)
  /\ (m = "GET" ->
      exists body s',
        post_useapi session (mkRequest h p rt m pl) s = (body, s')
        /\ trace s' =
           (trace s ++ [CallGet ("http://" ++ h ++ ":" ++ str_int p ++ rt)])%list).
Proof.
  intros Hm.
  assert (V : model_validate (mkRequest h p rt m pl) = inr (mkRequest h p rt m pl)).
  { unfold model_validate, method_pattern. cbn.
    destruct Hm as [-> | ->]; reflexivity. }
  split; [exact V |].
  intros ->. unfold post_useapi. rewrite V. unfold bind at 1.
  pose proof (use_api_GET_trace (mkRequest h p rt "GET" pl) s eq_refl) as Ht.
  destruct (use_api session (mkRequest h p rt "GET" pl) s) as [[v | e] s'];
    cbn in Ht; eexists; exists s'; (split; [reflexivity | exact Ht]).
Qed.
End RelayProperties.

(** ** The relay on concrete upstreams *)

Import Scenarios.

(** C1. The upstream answers 200 with a [text/plain] body: [json()]
    raises a [ContentTypeError], which the [except ValueError] of
    [handle_response] does not catch and the [except ClientError] of
    [use_api] does.  The envelope is a synthetic 500, not the upstream's
    200 with the text of the body. *)
Theorem plain_text_body_becomes_client_error :
  use_api (constant_session (Return plain_text_response)) get_item5 s0 =
  (Return (envelope 500 (JStr "Client error: Attempt to decode JSON with unexpected mimetype: text/plain")),
   mkSt 1%nat [CallGet "http://localhost:8001/api/item/5"])
  /\ fst (use_api (constant_session (Return plain_text_response)) get_item5 s0)
     <> Return (envelope (status plain_text_response) (JStr "hello")).
Proof. split; [reflexivity | discriminate]. Qed.

(** C3. The upstream answers with a JSON body nested too deep to
    decode: the [RecursionError] of [json()] is an instance of none of
    the five classes [use_api] catches, and [use_api] raises it to its
    caller. *)
Theorem unexpected_fault_escapes_use_api :
  handled RecursionError_exc = false
  /\ use_api (constant_session (Return deep_json_response)) get_item5 s0 =
     (Raise RecursionError_exc,
      mkSt 1%nat [CallGet "http://localhost:8001/api/item/5"]).
Proof. split; reflexivity. Qed.

(** C4, refuted as stated: the client's fault for a malformed URL is a
    [ValueError] and a [ClientError], and the clause for [ClientError]
    comes first, so the envelope is 500 "Client error: ..." and not 400
    "Invalid input: ..."; in the same way a broken connection, an
    [OSError] and a [ClientError], gives "Client error: ..." and not
    "I/O error: ...". *)
Lemma client_fault_takes_the_earlier_clause :
  (isinstance InvalidURL_exc ValueError = true
   /\ outbound (constant_session (Raise InvalidURL_exc)) get_port_70000 (world s0)
      = Some (Raise InvalidURL_exc)
   /\ fst (use_api (constant_session (Raise InvalidURL_exc)) get_port_70000 s0)
      = Return (envelope 500 (JStr "Client error: http://localhost:70000/"))
   /\ fst (use_api (constant_session (Raise InvalidURL_exc)) get_port_70000 s0)
      <> Return (envelope 400 (JStr ("Invalid input: " ++ exc_str InvalidURL_exc))))
  /\ (isinstance ClientOSError_exc IOError = true
      /\ outbound (constant_session (Raise ClientOSError_exc)) get_item5 (world s0)
         = Some (Raise ClientOSError_exc)
      /\ fst (use_api (constant_session (Raise ClientOSError_exc)) get_item5 s0)
         = Return (envelope 500 (JStr "Client error: [Errno 104] Connection reset by peer"))
      /\ fst (use_api (constant_session (Raise ClientOSError_exc)) get_item5 s0)
         <> Return (envelope 500 (JStr ("I/O error: " ++ exc_str ClientOSError_exc)))).
Proof.
  split; (split; [reflexivity | split; [reflexivity | split; [reflexivity | discriminate]]]).
Qed.

(** C5, refuted as stated: the descriptor with port 70000 validates,
    [use_api] runs and hands its URL to the client session, and the
    answer is a relay envelope (the client's fault for the URL), not a
    validation failure. *)
Lemma port_70000_is_accepted :
  ~ (1 <= port get_port_70000 <= 65535)
  /\ model_validate get_port_70000 = inr get_port_70000
  /\ post_useapi (constant_session (Raise InvalidURL_exc)) get_port_70000 s0 =
     (Return (Responded (envelope 500 (JStr "Client error: http://localhost:70000/"))),
      mkSt 1%nat [CallGet "http://localhost:70000/"]).
Proof. split; [cbn; lia | split; reflexivity]. Qed.

(** The general statements at concrete upstreams. *)

Lemma post_without_payload_short_circuits_witness :
  use_api (constant_session (Return json_response)) post_without_payload s0 =
  (Return (envelope 400 (JStr "Payload is required for POST requests")), s0).
Proof.
  apply (post_without_payload_short_circuits
           (constant_session (Return json_response)) post_without_payload s0);
    reflexivity.
Defined.

Lemma use_api_error_taxonomy_witness :
  fst (use_api (constant_session (Raise TimeoutError_exc)) get_item5 s0) =
  Return (envelope 504 (JStr "Request timed out"))
  /\ fst (use_api (constant_session (Raise ClientConnectorError_exc)) get_item5 s0) =
     Return (envelope 503 (JStr ("Service unavailable: "
                                 ++ exc_str ClientConnectorError_exc)))
  /\ fst (use_api (constant_session (Raise ServerDisconnectedError_exc)) post_item s0) =
     Return (envelope 500 (JStr "Client error: Server disconnected"))
  /\ fst (use_api (constant_session (Raise ValueError_exc)) get_item5 s0) =
     Return (envelope 400 (JStr "Invalid input: unknown url type"))
  /\ fst (use_api (constant_session (Raise OSError_exc)) post_item s0) =
     Return (envelope 500 (JStr "I/O error: [Errno 24] Too many open files")).
Proof.
  split; [| split; [| split; [| split]]].
  - apply (use_api_error_taxonomy (constant_session (Raise TimeoutError_exc))
             get_item5 s0 TimeoutError_exc eq_refl); reflexivity.
  - apply (use_api_error_taxonomy (constant_session (Raise ClientConnectorError_exc))
             get_item5 s0 ClientConnectorError_exc eq_refl); reflexivity.
  - apply (use_api_error_taxonomy (constant_session (Raise ServerDisconnectedError_exc))
             post_item s0 ServerDisconnectedError_exc eq_refl); reflexivity.
  - apply (use_api_error_taxonomy (constant_session (Raise ValueError_exc))
             get_item5 s0 ValueError_exc eq_refl); reflexivity.
  - apply (use_api_error_taxonomy (constant_session (Raise OSError_exc))
             post_item s0 OSError_exc eq_refl); reflexivity.
Defined.

Lemma get_ignores_payload_witness :
  use_api (constant_session (Return json_response)) get_item5 s0 =
  use_api (constant_session (Return json_response))
          (mkRequest "localhost" 8001 "/api/item/5" "GET"
                     (Some [("name", JStr "a")])) s0
  /\ exists c,
      trace (snd (use_api (constant_session (Return json_response)) get_item5 s0))
      = (trace s0 ++ [c])%list
      /\ call_body c = None.
Proof.
  apply (get_ignores_payload (constant_session (Return json_response)));
    reflexivity.
Defined.

Lemma get_relay_deterministic_witness :
  fst (use_api (constant_session (Return undecodable_response)) get_item5 s0) =
  fst (use_api (constant_session (Return undecodable_response)) get_item5
               (snd (use_api (constant_session (Return undecodable_response))
                             get_item5 s0))).
Proof.
  apply (get_relay_deterministic (constant_session (Return undecodable_response)));
    reflexivity.
Defined.

Lemma non_synthetic_status_is_upstream_witness :
  exists resp,
    outbound (constant_session (Return not_found_response)) get_item5 (world s0)
    = Some (Return resp)
    /\ status resp = 404
    /\ relays resp (envelope 404 (JDict [("detail", JStr "Item not found")])).
Proof.
  apply (non_synthetic_status_is_upstream
           (constant_session (Return not_found_response)) get_item5 s0
           404 (JDict [("detail", JStr "Item not found")])); reflexivity.
Defined.

Lemma method_match_is_exact_witness :
  model_validate get_item5 = inr get_item5
  /\ exists err,
      model_validate lowercase_get = inl err
      /\ post_useapi (constant_session (Return json_response)) lowercase_get s0
         = (Return (Unprocessable err), s0)
      /\ inbound_status (Unprocessable err) = 422
      /\ 400 <= inbound_status (Unprocessable err) < 500.
Proof.
  split.
  - apply (method_match_is_exact (constant_session (Return json_response))
             get_item5 s0). left. reflexivity.
  - apply (method_match_is_exact (constant_session (Return json_response))
             lowercase_get s0). intros [H | H]; discriminate H.
Defined.

Lemma port_is_not_range_checked_witness :
  model_validate (mkRequest "localhost" 70000 "/" "GET" None)
  = inr (mkRequest "localhost" 70000 "/" "GET" None)
  /\ exists body s',
      post_useapi (constant_session (Raise InvalidURL_exc))
                  (mkRequest "localhost" 70000 "/" "GET" None) s0 = (body, s')
      /\ trace s' = (trace s0 ++ [CallGet "http://localhost:70000/"])%list.
Proof.
  destruct (port_is_not_range_checked (constant_session (Raise InvalidURL_exc))
              "localhost" 70000 "/" "GET" None s0 (or_introl eq_refl)) as [V T].
  split; [exact V | exact (T eq_refl)].
Defined.

(** ** The mock item server *)

Import mock_api_server.

(** C10. [read_item] raises the 404 "Item not found" exactly when
    [item_id < 0] or [item_id > 100]; for [0 <= item_id <= 100] it
    returns the record with that [item_id] and the name
    "Item {item_id}", as for [item_id = 5]. *)
Theorem read_item_not_found_iff (item_id : Z) (value : Q) :
  (read_item item_id value = inl (mkHTTPException 404 "Item not found")
   <-> item_id < 0 \/ item_id > 100)
  /\ (0 <= item_id <= 100 ->
      read_item item_id value =
      inr (JDict [("item_id", JInt item_id);
                  ("name", JStr ("Item " ++ str_int item_id));
                  ("value", JFloat value)]))
  /\ read_item 5 value =
     inr (JDict [("item_id", JInt 5); ("name", JStr "Item 5");
                 ("value", JFloat value)]).
Proof.
  unfold read_item. repeat split.
  - destruct (item_id <? 0) eqn:A; [intros _; left; lia |].
    destruct (item_id >? 100) eqn:B; [intros _; right; lia | discriminate].
  - intros [H | H].
    + apply Z.ltb_lt in H. now rewrite H.
    + apply Z.gtb_gt in H. rewrite H, orb_true_r. reflexivity.
  - intros [H1 H2].
    replace (item_id <? 0) with false by (symmetry; apply Z.ltb_ge; lia).
    replace (item_id >? 100) with false by (symmetry; rewrite Z.gtb_ltb; apply Z.ltb_ge; lia).
    reflexivity.
Qed.

Lemma read_item_not_found_iff_witness :
  read_item 101 (1 # 1) = inl (mkHTTPException 404 "Item not found")
  /\ read_item (-1) (1 # 1) = inl (mkHTTPException 404 "Item not found")
  /\ read_item 100 (1 # 1) =
     inr (JDict [("item_id", JInt 100); ("name", JStr "Item 100");
                 ("value", JFloat (1 # 1))]).
Proof.
  split; [| split].
  - apply (read_item_not_found_iff 101 (1 # 1)). right. lia.
  - apply (read_item_not_found_iff (-1) (1 # 1)). left. lia.
  - apply (read_item_not_found_iff 100 (1 # 1)). lia.
Defined.

(** ** More of the relay: calls, faults and what an envelope tells *)

Section RelayCalls.
Context {World : Type}.
Variable session : ClientSession World.

(** The state a [POST] with a payload leaves: the world after the one
    call, and the call at the end of the log. *)
Lemma use_api_POST_state (request : APIRequest) (s : St World) p :
  method request = "POST" -> payload request = Some p ->
  snd (use_api session request s) =
  mkSt (snd (post session (target_url request) p (world s)))
       (trace s ++ [CallPost (target_url request) p]).
Proof.
  intros Hm Hp. unfold use_api. fold (target_url request).
  rewrite Hm, Hp. cbn [String.eqb Ascii.eqb Bool.eqb].
  unfold try_except, bind, session_post.
  destruct (post session (target_url request) p (world s)) as [[resp | e] w].
  - pose proof (handle_response_state resp
                  (mkSt w (trace s ++ [CallPost (target_url request) p]))) as Hs.
    destruct (handle_response resp _) as [[v | e] s']; cbn in Hs; subst s'.
    + reflexivity.
    + cbn. repeat (destruct (isinstance e _); [reflexivity |]). reflexivity.
  - cbn. repeat (destruct (isinstance e _); [reflexivity |]). reflexivity.
Qed.

(** What [outbound] is for each shape of descriptor. *)
Lemma outbound_None_iff (request : APIRequest) (w : World) :
  outbound session request w = None <->
  method request <> "GET"
  /\ (method request = "POST" -> payload request = None).
Proof.
  unfold outbound.
  destruct (String.eqb_spec (method request) "GET") as [Hg | Hg].
  - split; [discriminate | intros [H _]; contradiction].
  - destruct (String.eqb_spec (method request) "POST") as [Hp | Hp].
    + destruct (payload request).
      * split; [discriminate | intros [_ H]; now specialize (H Hp)].
      * split; auto.
    + split; auto. intros _. split; [exact Hg | intros; contradiction].
Qed.

(** X1. A [POST] descriptor with a payload, the empty dict included,
    makes exactly one request: a [POST] to the descriptor's URL whose
    JSON body is the payload.  This holds whatever the client answers. *)
Theorem post_sends_payload_once (request : APIRequest) (s : St World)
        (p : list (string * JSON)) :
  method request = "POST" ->
  payload request = Some p ->
  exists c,
    trace (snd (use_api session request s)) = (trace s ++ [c])%list
    /\ c = CallPost ("http://" ++ host request ++ ":" ++ str_int (port request)
                               ++ route request) p
    /\ call_body c = Some (JDict p)
    /\ world (snd (use_api session request s)) =
       snd (post session (target_url request) p (world s)).
Proof.
  intros Hm Hp. rewrite (use_api_POST_state _ _ _ Hm Hp).
  eexists. repeat split.
Qed.

(** X2. One invocation makes at most one request and never retries: the
    log only grows, by at most one entry.  It gets no entry exactly for
    a [POST] without payload and for a method other than [GET] and
    [POST], and then the world is left as it was. *)
Theorem use_api_at_most_one_call (request : APIRequest) (s : St World) :
  exists l,
    trace (snd (use_api session request s)) = (trace s ++ l)%list
    /\ (length l <= 1)%nat
    /\ (l = [] <->
        method request <> "GET"
        /\ (method request = "POST" -> payload request = None))
    /\ (l = [] -> snd (use_api session request s) = s).
Proof.
  destruct (String.eqb_spec (method request) "GET") as [Hg | Hg].
  - exists [CallGet (target_url request)].
    rewrite (use_api_GET_trace _ _ _ Hg).
    repeat split; try discriminate; try (cbn; lia).
    intros [H _]. contradiction.
  - destruct (String.eqb_spec (method request) "POST") as [Hp | Hp].
    + destruct (payload request) as [p |] eqn:Hpl.
      * exists [CallPost (target_url request) p].
        rewrite (use_api_POST_state _ _ _ Hp Hpl).
        repeat split; try discriminate; try (cbn; lia).
        intros [_ H]. specialize (H Hp). discriminate.
      * exists [].
        assert (Ho : outbound session request (world s) = None).
        { apply outbound_None_iff. split; [exact Hg | now rewrite Hpl]. }
        rewrite (use_api_no_call _ _ _ Ho). cbn. rewrite app_nil_r.
        repeat split; auto.
    + exists [].
      assert (Ho : outbound session request (world s) = None).
      { apply outbound_None_iff. split; [exact Hg | intros; contradiction]. }
      rewrite (use_api_no_call _ _ _ Ho). cbn. rewrite app_nil_r.
      repeat split; auto. intros; contradiction.
Qed.

(** X3. An upstream response is passed through with its own status,
    also a 4xx or 5xx one: with the decoded value when [json()] returns
    it, and with the text of the body when [json()] raises a
    [ValueError] and [text()] returns. *)
Theorem use_api_relays_response (request : APIRequest) (s : St World)
        (resp : ClientResponse) :
  outbound session request (world s) = Some (Return resp) ->
  (forall c, json resp = Return c ->
             fst (use_api session request s) = Return (envelope (status resp) c))
  /\ (forall e t, json resp = Raise e -> isinstance e ValueError = true ->
                  text resp = Return t ->
                  fst (use_api session request s) =
                  Return (envelope (status resp) (JStr t))).
Proof.
  intros Ho. rewrite (use_api_call_response _ _ _ _ Ho). split.
  - intros c Hj. now rewrite (handle_response_json resp s c Hj).
  - intros e t Hj Hv Ht. now rewrite (handle_response_text resp s e t Hj Hv Ht).
Qed.

(** X4. A fault while the body is read does not come back as the
    upstream's status: a fault of [json()] that is no [ValueError], and a
    fault of [text()] in the fallback, go through the [except] clauses of
    [use_api] like a fault of the call. *)
Theorem use_api_body_fault (request : APIRequest) (s : St World)
        (resp : ClientResponse) (e : PyExc) :
  outbound session request (world s) = Some (Return resp) ->
  json resp = Raise e ->
  (isinstance e ValueError = false ->
   fst (use_api session request s) = taxonomy e)
  /\ (forall e', isinstance e ValueError = true -> text resp = Raise e' ->
                 fst (use_api session request s) = taxonomy e').
Proof.
  intros Ho Hj. rewrite (use_api_call_response _ _ _ _ Ho). split.
  - intros Hv. now rewrite (handle_response_raises resp s e Hj Hv).
  - intros e' Hv Ht. unfold handle_response, try_except, bind, await, ret.
    rewrite Hj. cbn [first_handler]. rewrite Hv, Ht. reflexivity.
Qed.

(** X5. [use_api] raises nothing of its own and nothing it has a clause
    for: an exception that leaves it is an instance of none of the five
    classes, and it was raised by the outbound call, by [json()] or by
    [text()]. *)
Theorem use_api_raises_only_client_faults (request : APIRequest) (s : St World)
        (e : PyExc) :
  fst (use_api session request s) = Raise e ->
  handled e = false
  /\ (outbound session request (world s) = Some (Raise e)
      \/ exists resp, outbound session request (world s) = Some (Return resp)
                      /\ (json resp = Raise e \/ text resp = Raise e)).
Proof.
  intros H.
  destruct (outbound session request (world s)) as [[resp | e0] |] eqn:Ho.
  - rewrite (use_api_call_response _ _ _ _ Ho) in H.
    destruct (handle_response_cases resp s) as [[v [Hv _]] | [e1 [He Hor]]].
    + rewrite Hv in H. discriminate.
    + rewrite He in H. cbn in H. apply taxonomy_raises in H. destruct H as [-> Hh].
      split; [exact Hh |]. right. now exists resp.
  - rewrite (use_api_call_fault _ _ _ _ Ho) in H.
    apply taxonomy_raises in H. destruct H as [-> Hh]. split; [exact Hh | now left].
  - rewrite (use_api_no_call _ _ _ Ho) in H. discriminate.
Qed.
(** Every envelope of the [except] chain has a string as content and
    one of four statuses. *)
Lemma taxonomy_envelope (e : PyExc) (st : Z) (c : JSON) :
  taxonomy e = Return (envelope st c) ->
  (exists msg, c = JStr msg) /\ synthetic_status st = true.
Proof.
  unfold taxonomy.
  repeat (destruct (isinstance e _);
          [intros [= <- <-]; split; [eexists |]; reflexivity |]).
  discriminate.
Qed.

(** X6. [use_api] returns [None] exactly when the method is neither
    "GET" nor "POST"; so for a descriptor that passed validation every
    value it returns is an envelope, a dict of [status] and
    [content]. *)
Theorem use_api_returns_none_iff (request : APIRequest) (s : St World) :
  (fst (use_api session request s) = Return JNull <->
   method request <> "GET" /\ method request <> "POST")
  /\ (forall raw v,
         model_validate raw = inr request ->
         fst (use_api session request s) = Return v ->
         exists st c, v = envelope st c).
Proof.
  assert (P : method_pattern (method request) = true
              <-> method request = "GET" \/ method request = "POST").
  { unfold method_pattern. cbn. rewrite !orb_true_iff, !String.eqb_eq.
    intuition discriminate. }
  assert (E : method_pattern (method request) = true ->
              forall v, fst (use_api session request s) = Return v ->
                        exists st c, v = envelope st c).
  { intros Hm v Hv.
    destruct (use_api_envelope_or_unhandled session request s Hm)
      as [[st [c H]] | [e [H _]]]; rewrite Hv in H.
    - injection H as ->. now exists st, c.
    - discriminate. }
  split; [split |].
  - intros H. destruct (method_pattern (method request)) eqn:Hm.
    + destruct (E eq_refl JNull H) as [st [c Hc]]. discriminate.
    + split; intros Hx;
        assert (Ht : false = true) by (apply P; auto); discriminate.
  - intros [Hg Hp].
    assert (Ho : outbound session request (world s) = None).
    { apply outbound_None_iff. split; [exact Hg | intros; contradiction]. }
    rewrite (use_api_no_call _ _ _ Ho). cbn.
    destruct (String.eqb_spec (method request) "POST"); [contradiction | reflexivity].
  - intros raw v Hval. apply E.
    unfold model_validate in Hval.
    destruct (method_pattern (method raw)) eqn:Hm; [| discriminate].
    injection Hval as <-. exact Hm.
Qed.

(** X7. A fault of the client library never escapes and never looks
    like a caller's mistake: when the call, or [json()] with a fault that
    is no [ValueError], raises an instance of [ClientError], the result
    is an envelope with status 504, 503 or 500 and a message as
    content. *)
Theorem client_error_gives_5xx_envelope (request : APIRequest) (s : St World)
        (e : PyExc) :
  isinstance e ClientError = true ->
  outbound session request (world s) = Some (Raise e)
  \/ (exists resp, outbound session request (world s) = Some (Return resp)
                   /\ json resp = Raise e /\ isinstance e ValueError = false) ->
  exists st msg,
    fst (use_api session request s) = Return (envelope st (JStr msg))
    /\ (st = 504 \/ st = 503 \/ st = 500).
Proof.
  intros Hc Ho.
  assert (T : fst (use_api session request s) = taxonomy e).
  { destruct Ho as [Ho | [resp [Ho [Hj Hv]]]].
    - now apply use_api_call_fault.
    - rewrite (use_api_call_response _ _ _ _ Ho).
      now rewrite (handle_response_raises resp s e Hj Hv). }
  rewrite T. unfold taxonomy.
  destruct (isinstance e asyncio_TimeoutError); [eexists; eexists; split; [reflexivity | auto] |].
  destruct (isinstance e ClientConnectorError); [eexists; eexists; split; [reflexivity | auto] |].
  rewrite Hc. eexists; eexists; split; [reflexivity | auto].
Qed.

(** X8. The content tells a relayed 400, 500, 503 or 504 from a
    synthetic one: the envelopes [use_api] writes itself carry a string,
    so an envelope whose content is not a string is an upstream response
    with that status and that decoded JSON body. *)
Theorem non_string_content_is_upstream (request : APIRequest) (s : St World)
        (st : Z) (c : JSON) :
  fst (use_api session request s) = Return (envelope st c) ->
  (forall t, c <> JStr t) ->
  exists resp,
    outbound session request (world s) = Some (Return resp)
    /\ status resp = st
    /\ json resp = Return c.
Proof.
  intros H Hc.
  destruct (outbound session request (world s)) as [[resp | e] |] eqn:Ho.
  - rewrite (use_api_call_response _ _ _ _ Ho) in H.
    destruct (handle_response_cases resp s) as [[v [Hv Hr]] | [e [He _]]].
    + rewrite Hv in H. cbn in H. injection H as ->.
      destruct Hr as [[c' [Hj E]] | [e' [t [_ [_ [_ E]]]]]].
      * injection E as -> ->. now exists resp.
      * injection E as _ ->. now destruct (Hc t).
    + rewrite He in H. cbn in H.
      destruct (taxonomy_envelope _ _ _ H) as [[msg ->] _]. now destruct (Hc msg).
  - rewrite (use_api_call_fault _ _ _ _ Ho) in H.
    destruct (taxonomy_envelope _ _ _ H) as [[msg ->] _]. now destruct (Hc msg).
  - rewrite (use_api_no_call _ _ _ Ho) in H. cbn in H.
    destruct (method request =? "POST")%string; [| discriminate].
    injection H as _ <-. now destruct (Hc "Payload is required for POST requests").
Qed.
End RelayCalls.

(** ** The URL of the outbound call *)

Lemma append_cancel_l (a x y : string) : a ++ x = a ++ y -> x = y.
Proof.
  induction a as [| c a IH]; cbn; [auto |]. intros [= H]. auto.
Qed.

(** Two strings without [c], each followed by [c] and a rest, are equal
    only part by part. *)
Lemma lacks_split (c : ascii) (a b x y : string) :
  lacks c a = true -> lacks c b = true ->
  a ++ String c x = b ++ String c y -> a = b /\ x = y.
Proof.
  revert b. induction a as [| a0 a IH]; intros [| b0 b]; cbn.
  - intros _ _ [= ->]. auto.
  - intros _ Hb [= <- _]. rewrite Ascii.eqb_refl in Hb. discriminate.
  - intros Ha _ [= -> _]. rewrite Ascii.eqb_refl in Ha. discriminate.
  - intros Ha Hb [= -> H].
    apply andb_true_iff in Ha, Hb. destruct Ha as [_ Ha], Hb as [_ Hb].
    destruct (IH b Ha Hb H) as [-> ->]. auto.
Qed.

Lemma string_of_uint_lacks_slash (d : Decimal.uint) :
  lacks "/" (NilEmpty.string_of_uint d) = true.
Proof. induction d; cbn; auto. Qed.

(** [str(n)] has no slash in it. *)
Lemma str_int_lacks_slash (n : Z) : lacks "/" (str_int n) = true.
Proof.
  unfold str_int, NilZero.string_of_int, NilZero.string_of_uint.
  destruct (Z.to_int n) as [d | d]; destruct d; cbn;
    try reflexivity; apply string_of_uint_lacks_slash.
Qed.

(** [str(n)] reads back as [n], so two integers never print alike. *)
Lemma str_int_inj (a b : Z) : str_int a = str_int b -> a = b.
Proof.
  assert (P : forall n, NilZero.int_of_string (str_int n) = Some (Z.to_int n)).
  { intros n. unfold str_int. apply NilZero.isi; destruct n; cbn;
      try discriminate; intros [= H]; now apply Unsigned.to_uint_nonnil in H. }
  intros H. apply to_int_inj.
  pose proof (P a) as Pa. rewrite H, P in Pa. now injection Pa.
Qed.

Lemma target_url_inj (r1 r2 : APIRequest) (t1 t2 : string) :
  host r1 = host r2 ->
  route r1 = String "/" t1 -> route r2 = String "/" t2 ->
  target_url r1 = target_url r2 ->
  port r1 = port r2 /\ route r1 = route r2.
Proof.
  unfold target_url. intros Hh H1 H2. rewrite Hh, H1, H2. cbn.
  intros [= H]. apply append_cancel_l in H. injection H as H.
  apply lacks_split in H; try apply str_int_lacks_slash.
  destruct H as [Hp ->]. split; [now apply str_int_inj | reflexivity].
Qed.

(** Without the leading slash the route runs into the port: these two
    descriptors name one URL. *)
Example route_without_slash_meets_port :
  target_url (mkRequest "localhost" 80 "80/x" "GET" None)
  = target_url (mkRequest "localhost" 8080 "/x" "GET" None).
Proof. reflexivity. Qed.

Section RelayTargets.
Context {World : Type}.
Variable session : ClientSession World.

(** X9. The port and the route are written into the URL as they are,
    and for routes that begin with a slash nothing is lost: two [GET]
    descriptors for one host whose requests are the same have the same
    port and the same route. *)
Theorem get_request_determines_port_and_route
        (r1 r2 : APIRequest) (s : St World) (t1 t2 : string) :
  method r1 = "GET" -> method r2 = "GET" ->
  host r1 = host r2 ->
  route r1 = String "/" t1 -> route r2 = String "/" t2 ->
  trace (snd (use_api session r1 s)) = trace (snd (use_api session r2 s)) ->
  port r1 = port r2 /\ route r1 = route r2.
Proof.
  intros M1 M2 Hh H1 H2.
  rewrite (use_api_GET_trace session r1 s M1), (use_api_GET_trace session r2 s M2).
  intros H. apply (target_url_inj r1 r2 t1 t2 Hh H1 H2).
  remember (target_url r1) as u1. remember (target_url r2) as u2.
  apply app_inv_head in H. now injection H.
Qed.

(** What the relay makes of a decodable answer of a FastAPI handler. *)
Lemma use_api_rendered (request : APIRequest) (s : St World)
      (resp : ClientResponse) (o : mock_api_server.HTTPException + JSON) :
  outbound session request (world s) = Some (Return resp) ->
  rendered o resp ->
  fst (use_api session request s) =
  Return match o with
         | inl exc => envelope (mock_api_server.status_code exc)
                               (JDict [("detail", JStr (mock_api_server.detail exc))])
         | inr v => envelope 200 v
         end.
Proof.
  intros Ho Hr. rewrite (use_api_call_response _ _ _ _ Ho).
  destruct o as [exc | v]; destruct Hr as [Hs Hj];
    rewrite (handle_response_json resp s _ Hj), Hs; reflexivity.
Qed.

(** X10. Relayed, the answers of the mock server keep their status and
    their JSON body.  [read_item] comes back as 404 with
    [{"detail": "Item not found"}] for an id outside 0..100 and as 200
    with the item otherwise; [simulate_error] as 500 with its detail or
    as 200 with its message. *)
Theorem relay_of_mock_server (request : APIRequest) (s : St World)
        (resp : ClientResponse) :
  outbound session request (world s) = Some (Return resp) ->
  (forall item_id v,
      rendered (mock_api_server.read_item item_id v) resp ->
      fst (use_api session request s) =
      Return (if (item_id <? 0) || (item_id >? 100)
              then envelope 404 (JDict [("detail", JStr "Item not found")])
              else envelope 200 (JDict [("item_id", JInt item_id);
                                        ("name", JStr ("Item " ++ str_int item_id));
                                        ("value", JFloat v)])))
  /\ (forall choice,
         rendered (mock_api_server.simulate_error choice) resp ->
         fst (use_api session request s) =
         Return (if choice
                 then envelope 500 (JDict [("detail", JStr "Code triggered 'Internal Server Error' in the mock server. NOT a real error")])
                 else envelope 200 (JDict [("message", JStr "No error occurred")]))).
Proof.
  intros Ho. split.
  - intros item_id v Hr. rewrite (use_api_rendered _ _ _ _ Ho Hr).
    unfold mock_api_server.read_item.
    destruct ((item_id <? 0) || (item_id >? 100)); reflexivity.
  - intros choice Hr. rewrite (use_api_rendered _ _ _ _ Ho Hr).
    destruct choice; reflexivity.
Qed.
End RelayTargets.

(** ** More of the mock server *)

(** X11. The mock server keeps nothing.  [create_item] answers with the
    drawn id and the item's own name and value, and the item's fields
    cannot replace the id; reading that id back raises the 404 when the
    draw is above 100, and otherwise gives the record named
    "Item {id}", whatever the item was called. *)
Theorem created_item_is_not_stored (item : Item) (randint : Z) (v : Q) :
  1 <= randint <= 1000 ->
  create_item item randint =
  JDict [("item_id", JInt randint); ("name", JStr (name item));
         ("value", JFloat (value item))]
  /\ (100 < randint ->
      read_item randint v = inl (mkHTTPException 404 "Item not found"))
  /\ (randint <= 100 ->
      read_item randint v =
      inr (JDict [("item_id", JInt randint);
                  ("name", JStr ("Item " ++ str_int randint));
                  ("value", JFloat v)])).
Proof.
  intros [Hlo Hhi]. split; [reflexivity |].
  unfold read_item.
  replace (randint <? 0) with false by (symmetry; apply Z.ltb_ge; lia).
  split; intros H.
  - replace (randint >? 100) with true by (symmetry; apply Z.gtb_gt; lia).
    reflexivity.
  - replace (randint >? 100) with false
      by (symmetry; rewrite Z.gtb_ltb; apply Z.ltb_ge; lia).
    reflexivity.
Qed.

(** The statements above at concrete upstreams. *)

Lemma post_sends_payload_once_witness :
  exists c,
    trace (snd (use_api (constant_session (Return json_response))
                        post_empty_payload s0)) = (trace s0 ++ [c])%list
    /\ c = CallPost "http://localhost:8001/api/item" []
    /\ call_body c = Some (JDict [])
    /\ world (snd (use_api (constant_session (Return json_response))
                           post_empty_payload s0)) = 1%nat.
Proof.
  apply (post_sends_payload_once (constant_session (Return json_response))
           post_empty_payload s0 []); reflexivity.
Defined.

Lemma use_api_at_most_one_call_witness :
  exists l,
    trace (snd (use_api (constant_session (Return json_response))
                        post_without_payload s0)) = (trace s0 ++ l)%list
    /\ l = []
    /\ snd (use_api (constant_session (Return json_response))
                    post_without_payload s0) = s0.
Proof.
  destruct (use_api_at_most_one_call (constant_session (Return json_response))
              post_without_payload s0) as [l [T [_ [E H]]]].
  assert (L : l = []).
  { apply E. split; [discriminate | reflexivity]. }
  exists l. split; [exact T | split; [exact L | exact (H L)]].
Defined.

Lemma use_api_relays_response_witness :
  fst (use_api (constant_session (Return upstream_500_response)) get_item5 s0)
  = Return (envelope 500 (JDict [("detail", JStr "boom")]))
  /\ fst (use_api (constant_session (Return undecodable_response)) post_item s0)
     = Return (envelope 200 (JStr "hello")).
Proof.
  split.
  - apply (use_api_relays_response (constant_session (Return upstream_500_response))
             get_item5 s0 upstream_500_response eq_refl). reflexivity.
  - apply (use_api_relays_response (constant_session (Return undecodable_response))
             post_item s0 undecodable_response eq_refl) with JSONDecodeError_exc;
      reflexivity.
Defined.

Lemma use_api_body_fault_witness :
  fst (use_api (constant_session (Return plain_text_response)) get_item5 s0)
  = taxonomy ContentTypeError_exc
  /\ fst (use_api (constant_session (Return binary_response)) get_item5 s0)
     = Return (envelope 400 (JStr ("Invalid input: " ++ exc_str UnicodeDecodeError_exc))).
Proof.
  split.
  - exact (proj1 (use_api_body_fault (constant_session (Return plain_text_response))
                    get_item5 s0 plain_text_response ContentTypeError_exc
                    eq_refl eq_refl)
                 eq_refl).
  - exact (proj2 (use_api_body_fault (constant_session (Return binary_response))
                    get_item5 s0 binary_response UnicodeDecodeError_exc
                    eq_refl eq_refl)
                 UnicodeDecodeError_exc eq_refl eq_refl).
Defined.

Lemma use_api_raises_only_client_faults_witness :
  handled RecursionError_exc = false
  /\ (outbound (constant_session (Return deep_json_response)) get_item5 (world s0)
      = Some (Raise RecursionError_exc)
      \/ exists resp,
          outbound (constant_session (Return deep_json_response)) get_item5 (world s0)
          = Some (Return resp)
          /\ (json resp = Raise RecursionError_exc \/ text resp = Raise RecursionError_exc)).
Proof.
  apply (use_api_raises_only_client_faults
           (constant_session (Return deep_json_response)) get_item5 s0).
  reflexivity.
Defined.

Lemma use_api_returns_none_iff_witness :
  fst (use_api (constant_session (Return json_response)) lowercase_get s0)
  = Return JNull
  /\ exists st c, envelope 200 item5 = envelope st c.
Proof.
  split.
  - apply (use_api_returns_none_iff (constant_session (Return json_response))
             lowercase_get s0). split; discriminate.
  - apply (proj2 (use_api_returns_none_iff (constant_session (Return json_response))
                    get_item5 s0) get_item5 (envelope 200 item5)); reflexivity.
Defined.

Lemma client_error_gives_5xx_envelope_witness :
  (exists st msg,
      fst (use_api (constant_session (Return plain_text_response)) get_item5 s0)
      = Return (envelope st (JStr msg))
      /\ (st = 504 \/ st = 503 \/ st = 500))
  /\ (exists st msg,
         fst (use_api (constant_session (Raise InvalidURL_exc)) get_port_70000 s0)
         = Return (envelope st (JStr msg))
         /\ (st = 504 \/ st = 503 \/ st = 500)).
Proof.
  split.
  - apply (client_error_gives_5xx_envelope
             (constant_session (Return plain_text_response)) get_item5 s0
             ContentTypeError_exc eq_refl).
    right. exists plain_text_response. repeat split.
  - apply (client_error_gives_5xx_envelope
             (constant_session (Raise InvalidURL_exc)) get_port_70000 s0
             InvalidURL_exc eq_refl).
    left. reflexivity.
Defined.

Lemma non_string_content_is_upstream_witness :
  exists resp,
    outbound (constant_session (Return upstream_500_response)) get_item5 (world s0)
    = Some (Return resp)
    /\ status resp = 500
    /\ json resp = Return (JDict [("detail", JStr "boom")]).
Proof.
  apply (non_string_content_is_upstream
           (constant_session (Return upstream_500_response)) get_item5 s0
           500 (JDict [("detail", JStr "boom")])).
  - reflexivity.
  - intros t. discriminate.
Defined.

Lemma get_request_determines_port_and_route_witness :
  port get_item5 = port (mkRequest "localhost" 8001 "/api/item/5" "GET" (Some []))
  /\ route get_item5 = route (mkRequest "localhost" 8001 "/api/item/5" "GET" (Some [])).
Proof.
  apply (get_request_determines_port_and_route
           (constant_session (Return json_response))
           get_item5 (mkRequest "localhost" 8001 "/api/item/5" "GET" (Some []))
           s0 "api/item/5" "api/item/5"); reflexivity.
Defined.

Lemma relay_of_mock_server_witness :
  fst (use_api (constant_session (Return not_found_response)) get_item500 s0)
  = Return (envelope 404 (JDict [("detail", JStr "Item not found")]))
  /\ fst (use_api (constant_session (Return mock_error_response)) get_error s0)
     = Return (envelope 500 (JDict [("detail", JStr "Code triggered 'Internal Server Error' in the mock server. NOT a real error")])).
Proof.
  split.
  - apply (proj1 (relay_of_mock_server (constant_session (Return not_found_response))
                    get_item500 s0 not_found_response eq_refl) 500 (1 # 1)).
    split; reflexivity.
  - apply (proj2 (relay_of_mock_server (constant_session (Return mock_error_response))
                    get_error s0 mock_error_response eq_refl) true).
    split; reflexivity.
Defined.

Lemma created_item_is_not_stored_witness :
  create_item widget 500 =
  JDict [("item_id", JInt 500); ("name", JStr "widget"); ("value", JFloat (5 # 2))]
  /\ read_item 500 (1 # 1) = inl (mkHTTPException 404 "Item not found").
Proof.
  destruct (created_item_is_not_stored widget 500 (1 # 1)) as [C [R _]]; [lia |].
  split; [exact C | apply R; lia].
Defined.
